(** * UMIE_datasets: dataset pipelines, extractors and selectors

    A shallow embedding of the two dataset pipelines
    [src/pipelines/brain_with_intracranial_hemorrhage.py] and
    [src/pipelines/chest_xray14.py]: their step tuples, their id / phase /
    label extractors and their file selectors, followed by the properties
    the specification states about them.

    Python values are modelled as follows: [str] is [string]; a [dict] with
    string keys is a [gmap string _]; a [dict] whose iteration order is
    observed is an association list; a raised exception is the [Raise]
    branch of [result]. *)

From Stdlib Require Import ZArith List Bool Ascii Lia.
From stdpp Require Import gmap strings.

Open Scope Z_scope.

(** ** Python exceptions and results *)

Inductive py_error : Type :=
| KeyError (key : string)
| IndexError
| TypeError
| ValueError
| AttributeError.

Inductive result (A : Type) : Type :=
| Ok (a : A)
| Raise (e : py_error).

Arguments Ok {A} a.
Arguments Raise {A} e.

(** Exceptions propagate through sequenced computations; [x ← r; k] is
    stdpp's notation for [mbind]. *)
#[global] Instance result_bind : MBind result :=
  fun A B (k : A -> result B) (r : result A) =>
    match r with
    | Ok a => k a
    | Raise e => Raise e
    end.

(** ** Python [str], [list] and [dict] primitives *)

Module Py.

(** [s.startswith(sub)] *)
Fixpoint startswith (sub s : string) : bool :=
  match sub, s with
  | EmptyString, _ => true
  | String a sub', String b s' => Ascii.eqb a b && startswith sub' s'
  | String _ _, EmptyString => false
  end.

(** [sub in s] for two strings: [sub] occurs in [s] as a substring. *)
Fixpoint str_contains (sub s : string) : bool :=
  match s with
  | EmptyString => startswith sub EmptyString
  | String _ s' => startswith sub s || str_contains sub s'
  end.

(** [s.split(sep)] for a one-character separator; the result is never
    empty. *)
Fixpoint split (sep : ascii) (s : string) : list string :=
  match s with
  | EmptyString => [EmptyString]
  | String c s' =>
      if Ascii.eqb c sep then EmptyString :: split sep s'
      else match split sep s' with
           | w :: ws => String c w :: ws
           | [] => [String c EmptyString]
           end
  end.

(** [l[i]], with Python's negative indices and its [IndexError]. *)
Definition index {A : Type} (l : list A) (i : Z) : result A :=
  let n := Z.of_nat (length l) in
  let j := if i <? 0 then i + n else i in
  if (j <? 0) || (n <=? j) then Raise IndexError
  else match l !! Z.to_nat j with
       | Some x => Ok x
       | None => Raise IndexError
       end.

(** [d[k]] on a dict, with its [KeyError]. *)
Definition getitem {V : Type} (d : gmap string V) (k : string) : result V :=
  match d !! k with
  | Some v => Ok v
  | None => Raise (KeyError k)
  end.

(** [posixpath]: [(p[:i], p[i:])] for [i = p.rfind('/') + 1]. *)
Fixpoint rsplit_slash (p : string) : string * string :=
  match p with
  | EmptyString => (EmptyString, EmptyString)
  | String c p' =>
      let '(head, tail) := rsplit_slash p' in
      match head with
      | String _ _ => (String c head, tail)
      | EmptyString =>
          if Ascii.eqb c "/" then (String c EmptyString, p')
          else (EmptyString, String c p')
      end
  end.

(** [os.path.basename(p)] *)
Definition basename (p : string) : string := snd (rsplit_slash p).

(** The directory part of [p], up to and including its last slash. *)
Definition dirprefix (p : string) : string := fst (rsplit_slash p).

(** Number of occurrences of a character, [s.count(c)]. *)
Fixpoint count (c : ascii) (s : string) : nat :=
  match s with
  | EmptyString => O
  | String a s' => ((if Ascii.eqb a c then 1 else 0) + count c s')%nat
  end.

End Py.

(** ** Steps and pipelines *)

(** The step classes imported from [steps] by the two pipeline modules. *)
Inductive Step : Type :=
| AddLabels
| AddUmieIds
| ConvertJpg2Png
| CopyMasks
| CreateBlankMasks
| CreateFileTree
| DeleteImgsWithNoAnnotations
| DeleteTempFiles
| DeleteTempPng
| GetFilePaths
| MasksToBinaryColors
| RecolorMasks
| StoreSourcePaths
| ValidateData.

#[global] Instance Step_eq_dec : EqDecision Step.
Proof. solve_decision. Defined.

(** A pipeline dataclass: its [name] and its [steps] tuple of
    (step name, step class) pairs. *)
Record Pipeline : Type := {
  name : string;
  steps : list (string * Step)
}.

(** The two missing-mask policies cannot be told apart from other steps by
    name only, so steps are looked up by class. *)
Definition has_step (s : Step) (p : Pipeline) : bool :=
  existsb (fun ns => bool_decide (ns.2 = s)) (steps p).

Definition BrainWithIntracranialHemorrhagePipeline : Pipeline := {|
  name := "brain_with_intracranial_hemorrhage";
  steps := [
    ("get_file_paths", GetFilePaths);
    ("create_file_tree", CreateFileTree);
    ("convert_jpg2png", ConvertJpg2Png);
    ("copy_masks", CopyMasks);
    ("masks_to_binary_colors", MasksToBinaryColors);
    ("recolor_masks", RecolorMasks);
    ("add_new_ids", AddUmieIds);
    ("add_labels", AddLabels);
    ("create_blank_masks", CreateBlankMasks);
    ("delete_temp_files", DeleteTempFiles);
    ("delete_temp_png", DeleteTempPng);
    ("validate_data", ValidateData)
  ]
|}.

Definition ChestXray14Pipeline : Pipeline := {|
  name := "chest_xray14";
  steps := [
    ("create_file_tree", CreateFileTree);
    ("get_file_paths", GetFilePaths);
    ("store_source_paths", StoreSourcePaths);
    ("add_new_ids", AddUmieIds);
    ("add_labels", AddLabels);
    ("delete_temp_files", DeleteTempFiles);
    ("validate_data", ValidateData)
  ]
|}.

(** The dataset pipelines defined by the two pipeline modules. *)
Definition pipelines : list Pipeline :=
  [BrainWithIntracranialHemorrhagePipeline; ChestXray14Pipeline].

(** [i] is a position of a step of class [s] in the step tuple of [p]. *)
Definition step_at (p : Pipeline) (i : nat) (s : Step) : Prop :=
  exists n : string, steps p !! i = Some (n, s).

(** ** Helpers of the base extractor classes *)

Module BaseExtractor.

(** Modelled from the spec: the method [_extract_parent_dir] of the base
    extractor class is missing from the sources. Its callers describe the
    result: with [parent_dir_level=1] it is "the name of folder 1 level
    above image", with [parent_dir_level=-2] it is the "name of parent
    folder of images"; with [include_path=False] only the folder name is
    returned. A positive level counts folders upwards from the image, a
    negative level indexes the path components from the end, and a path
    with too few components has no such folder. *)
Definition _extract_parent_dir (img_path : string) (parent_dir_level : Z)
  : result string :=
  let parts := Py.split "/" img_path in
  Py.index parts
    (if parent_dir_level <? 0 then parent_dir_level
     else - (parent_dir_level + 1)).

(** Modelled from the spec: the method [_get_phase_id_from_dict] of the base
    phase extractor is missing from the sources. The phase id is "resolved
    via a name→id lookup table" and the lookup "fails with a
    KeyError-equivalent when the source phase name is not in the table". *)
Definition _get_phase_id_from_dict (phases : gmap string string)
  (phase_name : string) : result string :=
  Py.getitem phases phase_name.

(** Modelled from the spec: the method [_extract_filename] of the base
    extractor class is missing from the sources; it yields the filename of
    the path, its last component. *)
Definition _extract_filename (img_path : string) : string :=
  Py.basename img_path.

(** Modelled from the spec: the method [_extract_by_separator] of the base
    extractor class is missing from the sources; it yields the segment of
    the filename at the given index once the filename is cut at each
    separator. *)
Definition _extract_by_separator (img_path : string) (separator : ascii)
  (index : Z) : result string :=
  Py.index (Py.split separator (_extract_filename img_path)) index.

End BaseExtractor.

(** ** Masks as read by the image codec *)

(** [cv2.imread] in its default mode yields a height x width x 3 array of
    unsigned bytes, channels in B, G, R order. *)
Definition pixel : Type := Z * Z * Z.
Definition image : Type := list (list pixel).

(** What a run can observe of the file system: which paths exist, and what
    [cv2.imread] decodes at a path ([None] when it cannot decode). *)
Record Disk : Type := {
  os_path_exists : string -> bool;
  cv2_imread : string -> option image
}.

(** [el in arr] for a list [el] of integers and an image array [arr]:
    numpy evaluates [(arr == el).any()], broadcasting [el] along the channel
    axis. A list of one value is compared with every channel, a list of
    three values channel by channel, and any other length cannot be
    broadcast against the three channels. *)
Definition ndarray_contains (el : list Z) (arr : image) : result bool :=
  match el with
  | [c] =>
      Ok (existsb (existsb (fun '(b, g, r) =>
            (b =? c) || (g =? c) || (r =? c))) arr)
  | [c0; c1; c2] =>
      Ok (existsb (existsb (fun '(b, g, r) =>
            (b =? c0) || (g =? c1) || (r =? c2))) arr)
  | _ => Raise ValueError
  end.

(** An entry of the [masks] table of a dataset configuration. *)
Record MaskColor : Type := {
  source_color : Z;
  target_color : Z
}.

(** ** brain_with_intracranial_hemorrhage.py *)

Module Brain.

Module ImgIdExtractor.
Definition _extract (img_path : string) : string :=
  Py.basename img_path.
End ImgIdExtractor.

Module StudyIdExtractor.
Definition _extract (img_path : string) : result string :=
  BaseExtractor._extract_parent_dir img_path (-2).
End StudyIdExtractor.

Module PhaseExtractor.
Definition _extract (phases : gmap string string) (img_path : string)
  : result string :=
  phase_name ← BaseExtractor._extract_parent_dir img_path 1;
  BaseExtractor._get_phase_id_from_dict phases phase_name.
End PhaseExtractor.

Module LabelExtractor.
Section WithCode.
Context {code : Type}.

Record t : Type := {
  labels : gmap string (list code);
  target_colors : list Z
}.

(** [masks] is iterated in insertion order, hence an association list. *)
Definition __init__ (labels : gmap string (list code))
  (masks : list (string * MaskColor)) : t :=
  {| labels := labels;
     target_colors := map (fun mask => target_color mask.2) masks |}.

Definition _extract (self : t) (disk : Disk) (img_path mask_path : string)
  : result (list code * list string) :=
  has_mask ←
    (if os_path_exists disk mask_path then
       match cv2_imread disk mask_path with
       | Some arr => ndarray_contains (target_colors self) arr
       | None => Raise TypeError
       end
     else Ok false);
  if has_mask : bool then
    codes ← Py.getitem (labels self) "brain_hemorrhage";
    Ok (codes, ["brain_hemorrhage"])
  else
    codes ← Py.getitem (labels self) "normal";
    Ok (codes, ["normal"]).

End WithCode.
Arguments t : clear implicits.
End LabelExtractor.

Module ImageSelector.
Definition _is_image_file (path : string) : bool :=
  Py.str_contains "." path.
End ImageSelector.

Module MaskSelector.
Definition _is_mask_file (path : string) : bool :=
  Py.str_contains "_HGE_Seg" path.
End MaskSelector.

End Brain.

(** ** chest_xray14.py *)

(** A cell of the label table read by [pandas.read_csv]: a string, or the
    missing value. *)
Inductive cell : Type :=
| Str (s : string)
| NaN.

(** A row of the table restricted to its two columns "Image Index" and
    "Finding Labels". *)
Record row : Type := {
  Image_Index : cell;
  Finding_Labels : cell
}.

Definition cell_eqb (c : cell) (s : string) : bool :=
  match c with
  | Str s' => String.eqb s' s
  | NaN => false
  end.

Module ChestXray14.

Module ImgIdExtractor.
Definition _extract (img_path : string) : result string :=
  BaseExtractor._extract_by_separator img_path "_" 1.
End ImgIdExtractor.

Module StudyIdExtractor.
Definition _extract (img_path : string) : result string :=
  Py.index (Py.split "_" (BaseExtractor._extract_filename img_path)) 0.
End StudyIdExtractor.

Module LabelExtractor.
Section WithCode.
Context {code : Type}.

Record t : Type := {
  labels : gmap string (list code);
  source_labels : list row
}.

(** The loop [for label in labels: radlex_labels.extend(self.labels[label])]. *)
Fixpoint extend_all (dict : gmap string (list code)) (names : list string)
  (radlex_labels : list code) : result (list code) :=
  match names with
  | [] => Ok radlex_labels
  | label :: names' =>
      codes ← Py.getitem dict label;
      extend_all dict names' (radlex_labels ++ codes)
  end.

Definition _extract (self : t) (img_path : string)
  : result (list code * list string) :=
  let img_name := Py.basename img_path in
  let img_row :=
    List.filter (fun r => cell_eqb (Image_Index r) img_name)
      (source_labels self) in
  match img_row with
  | [] => Ok ([], [])
  | r :: _ =>
      match Finding_Labels r with
      | Str s =>
          let names := Py.split "|" s in
          radlex_labels ← extend_all (labels self) names [];
          Ok (radlex_labels, names)
      | NaN => Raise AttributeError
      end
  end.

End WithCode.
Arguments t : clear implicits.
End LabelExtractor.

Module ImageSelector.
Definition _is_image_file (path : string) : bool := true.
End ImageSelector.

Module MaskSelector.
Definition _is_mask_file (path : string) : bool := true.
End MaskSelector.

End ChestXray14.

(** The (image selector, mask selector) pair of each dataset. *)
Definition selector_pairs : list ((string -> bool) * (string -> bool)) :=
  [ (Brain.ImageSelector._is_image_file, Brain.MaskSelector._is_mask_file);
    (ChestXray14.ImageSelector._is_image_file,
     ChestXray14.MaskSelector._is_mask_file) ].

(** [sub] occurs in [s]: some text before it and some text after it make
    up [s]. *)
Definition occurs (sub s : string) : Prop :=
  exists pre post : string, s = pre +:+ sub +:+ post.

(** An image-id extractor is injective within a study: two distinct paths
    with the same study id never get the same image id. *)
Definition injective_within_study
  (study_id img_id : string -> result string) : Prop :=
  forall (p1 p2 s i1 i2 : string),
    p1 <> p2 ->
    study_id p1 = Ok s -> study_id p2 = Ok s ->
    img_id p1 = Ok i1 -> img_id p2 = Ok i2 ->
    i1 <> i2.

(** Case analysis on a position in a step tuple. *)
Ltac by_position i :=
  do 13 (destruct i as [| i]; simpl in *; try congruence).

(** * Properties *)

(** ** Order and choice of steps *)

Lemma step_at_brain_recolor (i : nat) :
  step_at BrainWithIntracranialHemorrhagePipeline i RecolorMasks -> i = 5%nat.
Proof. intros [n H]. by_position i. Qed.

Lemma step_at_brain_binarize (j : nat) :
  step_at BrainWithIntracranialHemorrhagePipeline j MasksToBinaryColors ->
  j = 4%nat.
Proof. intros [n H]. by_position j. Qed.

Lemma step_at_chest_recolor (i : nat) :
  ~ step_at ChestXray14Pipeline i RecolorMasks.
Proof. intros [n H]. by_position i. Qed.

(** C1, as stated, fails: in the step tuple of
    BrainWithIntracranialHemorrhagePipeline the recolor step sits at
    position 5 and the binarize step at position 4, so recoloring does not
    come first. *)
Lemma recolor_before_binarize_counterexample :
  ~ (forall p : Pipeline, In p pipelines ->
     forall i j : nat,
       step_at p i RecolorMasks -> step_at p j MasksToBinaryColors ->
       (i < j)%nat).
Proof.
  intros H.
  assert (Hlt : (5 < 4)%nat).
  { apply (H BrainWithIntracranialHemorrhagePipeline).
    - left. reflexivity.
    - exists "recolor_masks". reflexivity.
    - exists "masks_to_binary_colors". reflexivity. }
  lia.
Qed.

(** C1, amended: in every dataset pipeline whose step tuple holds both a
    recolor step and a binarize step, the binarize step (MasksToBinaryColors)
    comes at an earlier position than the recolor step (RecolorMasks); in
    BrainWithIntracranialHemorrhagePipeline.steps they are at positions 4
    and 5. *)
Theorem binarize_before_recolor :
  forall p : Pipeline, In p pipelines ->
  forall i j : nat,
    step_at p i RecolorMasks -> step_at p j MasksToBinaryColors ->
    (j < i)%nat /\
    (p = BrainWithIntracranialHemorrhagePipeline -> j = 4%nat /\ i = 5%nat).
Proof.
  intros p [<- | [<- | []]] i j Hi Hj.
  - apply step_at_brain_recolor in Hi.
    apply step_at_brain_binarize in Hj.
    subst. split; [lia | intros _; split; reflexivity].
  - exfalso. exact (step_at_chest_recolor i Hi).
Qed.

Lemma binarize_before_recolor_witness :
  (4 < 5)%nat /\
  (BrainWithIntracranialHemorrhagePipeline =
   BrainWithIntracranialHemorrhagePipeline -> 4%nat = 4%nat /\ 5%nat = 5%nat).
Proof.
  apply (binarize_before_recolor BrainWithIntracranialHemorrhagePipeline).
  - left. reflexivity.
  - exists "recolor_masks". reflexivity.
  - exists "masks_to_binary_colors". reflexivity.
Defined.

(** C8: no dataset pipeline has both the blank-mask-synthesis step
    (CreateBlankMasks) and the drop-unmasked-images step
    (DeleteImgsWithNoAnnotations) in its step tuple. *)
Theorem missing_mask_policy_exclusive :
  forall p : Pipeline, In p pipelines ->
    has_step CreateBlankMasks p && has_step DeleteImgsWithNoAnnotations p
    = false.
Proof.
  intros p [<- | [<- | []]]; reflexivity.
Qed.

Lemma missing_mask_policy_exclusive_witness :
  has_step CreateBlankMasks BrainWithIntracranialHemorrhagePipeline = true /\
  has_step CreateBlankMasks BrainWithIntracranialHemorrhagePipeline &&
  has_step DeleteImgsWithNoAnnotations BrainWithIntracranialHemorrhagePipeline
  = false.
Proof.
  split.
  - reflexivity.
  - apply (missing_mask_policy_exclusive
             BrainWithIntracranialHemorrhagePipeline).
    left. reflexivity.
Defined.

(** ** Facts about the string primitives *)

Lemma append_cons (c : ascii) (a b : string) :
  String c a +:+ b = String c (a +:+ b).
Proof. reflexivity. Qed.

Lemma append_nil (b : string) : EmptyString +:+ b = b.
Proof. reflexivity. Qed.

(** A path is its directory part followed by its basename. *)
Lemma dirprefix_basename (p : string) :
  Py.dirprefix p +:+ Py.basename p = p.
Proof.
  unfold Py.dirprefix, Py.basename.
  induction p as [| c p IH]; [reflexivity |].
  simpl. destruct (Py.rsplit_slash p) as [head tail]. simpl in IH.
  destruct head as [| h head].
  - rewrite append_nil in IH. subst tail.
    destruct (Ascii.eqb c "/"); reflexivity.
  - simpl. rewrite append_cons. f_equal. exact IH.
Qed.

Lemma startswith_spec (sub s : string) :
  Py.startswith sub s = true <-> exists post : string, s = sub +:+ post.
Proof.
  revert s. induction sub as [| a sub IH]; intros s.
  - split; [intros _; exists s; reflexivity | reflexivity].
  - destruct s as [| b s]; simpl.
    + split; [discriminate | intros [post H]; discriminate].
    + rewrite andb_true_iff, Ascii.eqb_eq, IH.
      split.
      * intros [-> [post ->]]. exists post. reflexivity.
      * intros [post H]. rewrite append_cons in H.
        injection H as -> ->. split; [reflexivity | exists post; reflexivity].
Qed.

Lemma startswith_contains (sub s : string) :
  Py.startswith sub s = true -> Py.str_contains sub s = true.
Proof.
  destruct s; simpl; intros H; [exact H | rewrite H; reflexivity].
Qed.

(** Python's [sub in s] decides substring occurrence. *)
Lemma str_contains_spec (sub s : string) :
  Py.str_contains sub s = true <-> occurs sub s.
Proof.
  split.
  - induction s as [| a s IH]; simpl.
    + intros H. apply startswith_spec in H as [post H].
      exists EmptyString, post. exact H.
    + rewrite orb_true_iff. intros [H | H].
      * apply startswith_spec in H as [post H].
        exists EmptyString, post. exact H.
      * destruct (IH H) as (pre & post & ->).
        exists (String a pre), post. reflexivity.
  - intros (pre & post & ->).
    induction pre as [| a pre IH].
    + rewrite append_nil. apply startswith_contains.
      apply startswith_spec. exists post. reflexivity.
    + rewrite append_cons. simpl. rewrite IH. apply orb_true_r.
Qed.

(** Joining the pieces of a split with the separator gives the string
    back. *)
Lemma concat_split (sep : ascii) (s : string) :
  String.concat (String sep EmptyString) (Py.split sep s) = s.
Proof.
  induction s as [| c s IH]; [reflexivity |].
  simpl. destruct (Ascii.eqb_spec c sep) as [-> | Hne].
  - simpl. destruct (Py.split sep s) as [| w ws] eqn:E.
    + simpl in IH. subst s. discriminate E.
    + rewrite IH. reflexivity.
  - destruct (Py.split sep s) as [| w ws] eqn:E.
    + simpl in IH. subst s. discriminate E.
    + simpl in *. destruct ws as [| w' ws].
      * subst w. reflexivity.
      * rewrite append_cons. f_equal. exact IH.
Qed.

Lemma length_split (sep : ascii) (s : string) :
  length (Py.split sep s) = S (Py.count sep s).
Proof.
  induction s as [| c s IH]; [reflexivity |].
  simpl. destruct (Ascii.eqb c sep).
  - simpl. rewrite IH. reflexivity.
  - destruct (Py.split sep s) as [| w ws]; simpl in *; [discriminate IH |].
    exact IH.
Qed.

(** A string with exactly one separator is determined by its two pieces. *)
Lemma split_one_sep (sep : ascii) (s a b : string) :
  Py.count sep s = 1%nat ->
  Py.index (Py.split sep s) 0 = Ok a ->
  Py.index (Py.split sep s) 1 = Ok b ->
  s = a +:+ String sep EmptyString +:+ b.
Proof.
  intros Hc H0 H1.
  pose proof (length_split sep s) as Hl. rewrite Hc in Hl.
  pose proof (concat_split sep s) as Hj.
  destruct (Py.split sep s) as [| x [| y [| z l]]]; try discriminate Hl.
  unfold Py.index in H0, H1. simpl in H0, H1.
  injection H0 as ->. injection H1 as ->.
  simpl in Hj. symmetry. exact Hj.
Qed.

(** ** Selectors *)

(** C6, as stated, fails: the brain selectors both accept the path of a
    mask file such as 049/brain/1_HGE_Seg.jpg, which contains a dot as well
    as the mask marker. *)
Lemma selectors_disjoint_counterexample :
  ~ (forall sel : (string -> bool) * (string -> bool),
       In sel selector_pairs ->
       forall path : string, ~ (sel.1 path = true /\ sel.2 path = true)).
Proof.
  intros H.
  apply (H (Brain.ImageSelector._is_image_file,
            Brain.MaskSelector._is_mask_file)
           ltac:(left; reflexivity) "049/brain/1_HGE_Seg.jpg").
  split; reflexivity.
Qed.

(** C6, amended: the selector pairs are not disjoint. Both ChestX-ray14
    selectors accept every path; the brain image selector and mask selector
    both accept a path exactly when it contains both "." and "_HGE_Seg". *)
Theorem selectors_overlap :
  (forall path : string,
     ChestXray14.ImageSelector._is_image_file path = true /\
     ChestXray14.MaskSelector._is_mask_file path = true) /\
  (forall path : string,
     Brain.ImageSelector._is_image_file path = true /\
     Brain.MaskSelector._is_mask_file path = true
     <-> occurs "." path /\ occurs "_HGE_Seg" path).
Proof.
  split.
  - intros path. split; reflexivity.
  - intros path.
    unfold Brain.ImageSelector._is_image_file,
      Brain.MaskSelector._is_mask_file.
    rewrite !str_contains_spec. reflexivity.
Qed.

Lemma selectors_overlap_witness :
  Brain.ImageSelector._is_image_file "049/brain/1_HGE_Seg.jpg" = true /\
  Brain.MaskSelector._is_mask_file "049/brain/1_HGE_Seg.jpg" = true.
Proof.
  apply (proj2 selectors_overlap "049/brain/1_HGE_Seg.jpg").
  split.
  - exists "049/brain/1_HGE_Seg", "jpg". reflexivity.
  - exists "049/brain/1", ".jpg". reflexivity.
Defined.

(** ** Identifier extractors *)

(** C5, as stated, fails for both datasets: two images with the same file
    name in different source folders get the same study id and the same
    image id. *)
Lemma img_id_injective_counterexample :
  ~ injective_within_study Brain.StudyIdExtractor._extract
      (fun p => Ok (Brain.ImgIdExtractor._extract p)) /\
  ~ injective_within_study ChestXray14.StudyIdExtractor._extract
      ChestXray14.ImgIdExtractor._extract.
Proof.
  split; intros H.
  - apply (H "/A/049/brain/1.jpg" "/B/049/brain/1.jpg"
             "brain" "1.jpg" "1.jpg");
      [discriminate | reflexivity ..].
  - apply (H "/A/00000001_000.png" "/B/00000001_000.png"
             "00000001" "000.png" "000.png");
      [discriminate | reflexivity ..].
Qed.

(** C5, amended: within one source directory the image-id extractors are
    injective. For the brain dataset, two distinct paths in the same
    directory have distinct image ids (basenames). For ChestX-ray14, two
    distinct paths in the same directory with the same study id, whose file
    names hold exactly one underscore, have distinct image ids. *)
Theorem img_id_injective_within_directory :
  (forall p1 p2 : string,
     p1 <> p2 -> Py.dirprefix p1 = Py.dirprefix p2 ->
     Brain.ImgIdExtractor._extract p1 <> Brain.ImgIdExtractor._extract p2) /\
  (forall p1 p2 s i1 i2 : string,
     p1 <> p2 -> Py.dirprefix p1 = Py.dirprefix p2 ->
     Py.count "_" (BaseExtractor._extract_filename p1) = 1%nat ->
     Py.count "_" (BaseExtractor._extract_filename p2) = 1%nat ->
     ChestXray14.StudyIdExtractor._extract p1 = Ok s ->
     ChestXray14.StudyIdExtractor._extract p2 = Ok s ->
     ChestXray14.ImgIdExtractor._extract p1 = Ok i1 ->
     ChestXray14.ImgIdExtractor._extract p2 = Ok i2 ->
     i1 <> i2).
Proof.
  split.
  - intros p1 p2 Hne Hdir Hid. apply Hne.
    unfold Brain.ImgIdExtractor._extract in Hid.
    rewrite <- (dirprefix_basename p1), <- (dirprefix_basename p2).
    rewrite Hdir, Hid. reflexivity.
  - intros p1 p2 s i1 i2 Hne Hdir Hc1 Hc2 Hs1 Hs2 Hi1 Hi2 Hid. apply Hne.
    subst i2.
    unfold ChestXray14.StudyIdExtractor._extract in Hs1, Hs2.
    unfold ChestXray14.ImgIdExtractor._extract,
      BaseExtractor._extract_by_separator in Hi1, Hi2.
    pose proof (split_one_sep _ _ _ _ Hc1 Hs1 Hi1) as E1.
    pose proof (split_one_sep _ _ _ _ Hc2 Hs2 Hi2) as E2.
    unfold BaseExtractor._extract_filename in E1, E2.
    rewrite <- (dirprefix_basename p1), <- (dirprefix_basename p2).
    rewrite Hdir, E1, E2. reflexivity.
Qed.

Lemma img_id_injective_within_directory_witness :
  Brain.ImgIdExtractor._extract "/A/049/brain/1.jpg"
    <> Brain.ImgIdExtractor._extract "/A/049/brain/2.jpg" /\
  "000.png" <> "001.png".
Proof.
  split.
  - apply (proj1 img_id_injective_within_directory);
      [discriminate | reflexivity].
  - apply (proj2 img_id_injective_within_directory
             "/A/00000001_000.png" "/A/00000001_001.png" "00000001");
      [discriminate | reflexivity ..].
Defined.

(** C4: when the name of the folder one level above the image is not a key
    of the phase lookup table, the phase-id extractor raises KeyError for
    that name; it returns no phase id. *)
Theorem phase_extract_unknown_is_fatal :
  forall (phases : gmap string string) (img_path phase_name : string),
    BaseExtractor._extract_parent_dir img_path 1 = Ok phase_name ->
    phases !! phase_name = None ->
    Brain.PhaseExtractor._extract phases img_path
    = Raise (KeyError phase_name).
Proof.
  intros phases img_path phase_name Hdir Hno.
  unfold Brain.PhaseExtractor._extract. rewrite Hdir. simpl.
  unfold BaseExtractor._get_phase_id_from_dict, Py.getitem.
  rewrite Hno. reflexivity.
Qed.

Lemma phase_extract_unknown_is_fatal_witness :
  Brain.PhaseExtractor._extract
    (<["bone" := "0"]> (<["brain" := "1"]> ∅)) "/A/049/lung/1.jpg"
  = Raise (KeyError "lung").
Proof.
  apply phase_extract_unknown_is_fatal.
  - reflexivity.
  - vm_compute. reflexivity.
Defined.

(** ** Label extractors *)

(** With a single configured target colour, a mask that has a pixel of that
    grey value passes the membership test of the brain label extractor. *)
Lemma ndarray_contains_grey (c : Z) (arr : image) (line : list pixel) :
  In line arr -> In (c, c, c) line ->
  ndarray_contains [c] arr = Ok true.
Proof.
  intros Hline Hpx. unfold ndarray_contains. f_equal.
  apply existsb_exists. exists line. split; [exact Hline |].
  apply existsb_exists. exists (c, c, c). split; [exact Hpx |].
  rewrite Z.eqb_refl. reflexivity.
Qed.

(** C2: the brain label extractor returns the codes of "brain_hemorrhage"
    with raw labels ["brain_hemorrhage"] when the mask path exists and the
    mask read from it contains the configured target colours, and the codes
    of "normal" with raw labels ["normal"] when the mask path does not
    exist. *)
Theorem brain_label_extract :
  forall (code : Type) (self : Brain.LabelExtractor.t code) (disk : Disk)
         (img_path mask_path : string),
    (forall (arr : image) (codes : list code),
       os_path_exists disk mask_path = true ->
       cv2_imread disk mask_path = Some arr ->
       ndarray_contains (Brain.LabelExtractor.target_colors self) arr
       = Ok true ->
       Brain.LabelExtractor.labels self !! "brain_hemorrhage" = Some codes ->
       Brain.LabelExtractor._extract self disk img_path mask_path
       = Ok (codes, ["brain_hemorrhage"])) /\
    (forall codes : list code,
       os_path_exists disk mask_path = false ->
       Brain.LabelExtractor.labels self !! "normal" = Some codes ->
       Brain.LabelExtractor._extract self disk img_path mask_path
       = Ok (codes, ["normal"])).
Proof.
  intros code self disk img_path mask_path. split.
  - intros arr codes Hex Hrd Hin Hl.
    unfold Brain.LabelExtractor._extract, Py.getitem.
    rewrite Hex, Hrd, Hin. simpl. rewrite Hl. reflexivity.
  - intros codes Hex Hl.
    unfold Brain.LabelExtractor._extract, Py.getitem.
    rewrite Hex. simpl. rewrite Hl. reflexivity.
Qed.

Lemma brain_label_extract_witness :
  let self :=
    Brain.LabelExtractor.__init__
      (<["brain_hemorrhage" := ["Hemorrhage"]]>
         (<["normal" := ["NormalityDescriptor"]]> ∅))
      [("brain_hemorrhage", {| source_color := 255; target_color := 1 |})] in
  let disk :=
    {| os_path_exists := fun p => String.eqb p "049/brain/1_HGE_Seg.jpg";
       cv2_imread := fun p =>
         if String.eqb p "049/brain/1_HGE_Seg.jpg"
         then Some [[(0, 0, 0); (1, 1, 1)]; [(0, 0, 0); (0, 0, 0)]]
         else None |} in
  Brain.LabelExtractor._extract self disk
    "049/brain/1.jpg" "049/brain/1_HGE_Seg.jpg"
  = Ok (["Hemorrhage"], ["brain_hemorrhage"]) /\
  Brain.LabelExtractor._extract self disk
    "049/brain/2.jpg" "049/brain/2_HGE_Seg.jpg"
  = Ok (["NormalityDescriptor"], ["normal"]).
Proof.
  intros self disk. split.
  - apply (proj1 (brain_label_extract string self disk
                    "049/brain/1.jpg" "049/brain/1_HGE_Seg.jpg")
             [[(0, 0, 0); (1, 1, 1)]; [(0, 0, 0); (0, 0, 0)]]).
    + reflexivity.
    + reflexivity.
    + reflexivity.
    + vm_compute. reflexivity.
  - apply (proj2 (brain_label_extract string self disk
                    "049/brain/2.jpg" "049/brain/2_HGE_Seg.jpg")).
    + reflexivity.
    + vm_compute. reflexivity.
Defined.

Lemma filter_no_match {A : Type} (f : A -> bool) (l : list A) :
  (forall x : A, In x l -> f x = false) -> List.filter f l = [].
Proof.
  induction l as [| x l IH]; intros H; [reflexivity |].
  simpl. rewrite (H x (or_introl eq_refl)).
  apply IH. intros y Hy. apply H. right. exact Hy.
Qed.

Lemma filter_first_match {A : Type} (f : A -> bool) (l : list A) (x : A) :
  List.find f l = Some x -> exists rest : list A, List.filter f l = x :: rest.
Proof.
  induction l as [| y l IH]; simpl; [discriminate |].
  destruct (f y) eqn:E.
  - intros [= ->]. eexists. reflexivity.
  - exact IH.
Qed.

Lemma cell_eqb_false (c : cell) (s : string) :
  c <> Str s -> cell_eqb c s = false.
Proof.
  destruct c as [s' |]; simpl; [| reflexivity].
  intros H. apply String.eqb_neq. intros ->. apply H. reflexivity.
Qed.

(** C3: when no row of the label table has the basename of the image path
    in its "Image Index" column, the ChestX-ray14 label extractor returns
    the pair of two empty lists, as a normal result. *)
Theorem chest_label_extract_no_row :
  forall (code : Type) (self : ChestXray14.LabelExtractor.t code)
         (img_path : string),
    (forall r : row,
       In r (ChestXray14.LabelExtractor.source_labels self) ->
       Image_Index r <> Str (Py.basename img_path)) ->
    ChestXray14.LabelExtractor._extract self img_path = Ok ([], []).
Proof.
  intros code self img_path H.
  unfold ChestXray14.LabelExtractor._extract.
  rewrite filter_no_match; [reflexivity |].
  intros r Hr. apply cell_eqb_false. apply H. exact Hr.
Qed.

Lemma chest_label_extract_no_row_witness :
  ChestXray14.LabelExtractor._extract
    {| ChestXray14.LabelExtractor.labels :=
         <["Cardiomegaly" := ["RID1"]]> (∅ : gmap string (list string));
       ChestXray14.LabelExtractor.source_labels :=
         [ {| Image_Index := Str "00000001_000.png";
              Finding_Labels := Str "Cardiomegaly" |} ] |}
    "images/00000002_000.png"
  = Ok ([], []).
Proof.
  apply chest_label_extract_no_row.
  intros r [<- | []]. simpl. discriminate.
Defined.

Lemma extend_all_missing {code : Type} (dict : gmap string (list code))
  (names : list string) :
  (exists label : string, In label names /\ dict !! label = None) ->
  forall acc : list code, exists label : string,
    In label names /\ dict !! label = None /\
    ChestXray14.LabelExtractor.extend_all dict names acc
    = Raise (KeyError label).
Proof.
  induction names as [| n names IH]; intros (label & Hin & Hno) acc.
  - destruct Hin.
  - simpl. unfold Py.getitem. destruct (dict !! n) as [codes |] eqn:E.
    + destruct Hin as [-> | Hin]; [congruence |].
      destruct (IH (ex_intro _ label (conj Hin Hno)) (acc ++ codes))
        as (l & Hl & Hn & Hr).
      exists l. split; [right; exact Hl | split; [exact Hn | exact Hr]].
    + exists n. split; [left; reflexivity | split; [exact E | reflexivity]].
Qed.

(** C10: when the first row of the label table whose "Image Index" is the
    basename of the image path has a "Finding Labels" entry naming a finding
    that is not a key of the label vocabulary, the ChestX-ray14 label
    extractor raises KeyError for such a finding; it returns no result. *)
Theorem chest_label_extract_unknown_finding :
  forall (code : Type) (self : ChestXray14.LabelExtractor.t code)
         (img_path : string) (r : row) (findings : string),
    List.find (fun r => cell_eqb (Image_Index r) (Py.basename img_path))
      (ChestXray14.LabelExtractor.source_labels self) = Some r ->
    Finding_Labels r = Str findings ->
    (exists label : string,
       In label (Py.split "|" findings) /\
       ChestXray14.LabelExtractor.labels self !! label = None) ->
    exists label : string,
      In label (Py.split "|" findings) /\
      ChestXray14.LabelExtractor.labels self !! label = None /\
      ChestXray14.LabelExtractor._extract self img_path
      = Raise (KeyError label).
Proof.
  intros code self img_path r findings Hfind Hcell Hmiss.
  unfold ChestXray14.LabelExtractor._extract.
  destruct (filter_first_match _ _ _ Hfind) as [rest ->].
  rewrite Hcell.
  destruct (extend_all_missing _ _ Hmiss []) as (label & Hin & Hno & Hr).
  exists label. rewrite Hr. auto.
Qed.

Lemma chest_label_extract_unknown_finding_witness :
  let self :=
    {| ChestXray14.LabelExtractor.labels :=
         <["Cardiomegaly" := ["RID1"]]> (∅ : gmap string (list string));
       ChestXray14.LabelExtractor.source_labels :=
         [ {| Image_Index := Str "00000001_000.png";
              Finding_Labels := Str "Cardiomegaly|Glitch" |} ] |} in
  exists label : string,
    In label (Py.split "|" "Cardiomegaly|Glitch") /\
    ChestXray14.LabelExtractor.labels self !! label = None /\
    ChestXray14.LabelExtractor._extract self "images/00000001_000.png"
    = Raise (KeyError label).
Proof.
  intros self.
  apply (chest_label_extract_unknown_finding string self
           "images/00000001_000.png"
           {| Image_Index := Str "00000001_000.png";
              Finding_Labels := Str "Cardiomegaly|Glitch" |}
           "Cardiomegaly|Glitch").
  - reflexivity.
  - reflexivity.
  - exists "Glitch". split.
    + right. left. reflexivity.
    + vm_compute. reflexivity.
Defined.

(** * Further properties of the extractors and selectors *)

(** ** Paths and file names *)

Lemma count_basename (p : string) : Py.count "/" (Py.basename p) = 0%nat.
Proof.
  unfold Py.basename.
  induction p as [| c p IH]; [reflexivity |].
  pose proof (dirprefix_basename p) as Hp.
  unfold Py.dirprefix, Py.basename in Hp.
  simpl. destruct (Py.rsplit_slash p) as [head tail]. simpl in IH, Hp.
  destruct head as [| h head]; [| exact IH].
  rewrite append_nil in Hp. subst tail.
  destruct (Ascii.eqb c "/") eqn:E; simpl; [exact IH |].
  rewrite E, IH. reflexivity.
Qed.

Lemma rsplit_slash_plain (f : string) :
  Py.count "/" f = 0%nat -> Py.rsplit_slash f = (EmptyString, f).
Proof.
  induction f as [| c f IH]; intros Hf; [reflexivity |].
  simpl in Hf. destruct (Ascii.eqb c "/") eqn:E; [discriminate Hf |].
  simpl. rewrite (IH Hf), E. reflexivity.
Qed.

Lemma rsplit_slash_join (d f : string) :
  Py.count "/" f = 0%nat ->
  Py.rsplit_slash (d +:+ "/" +:+ f) = (d +:+ "/", f).
Proof.
  intros Hf. pose proof (rsplit_slash_plain f Hf) as Hbase.
  induction d as [| c d IH].
  - change (Py.rsplit_slash (String "/" f) = ("/", f)).
    simpl. rewrite Hbase. reflexivity.
  - rewrite (append_cons c d ("/" +:+ f)), (append_cons c d "/").
    change (Py.rsplit_slash (String c (d +:+ "/" +:+ f)))
      with (let '(head, tail) := Py.rsplit_slash (d +:+ "/" +:+ f) in
            match head with
            | String _ _ => (String c head, tail)
            | EmptyString =>
                if Ascii.eqb c "/"
                then (String c EmptyString, d +:+ "/" +:+ f)
                else (EmptyString, String c (d +:+ "/" +:+ f))
            end).
    rewrite IH. destruct d; reflexivity.
Qed.

Lemma str_contains_char (c : ascii) (s : string) :
  Py.str_contains (String c EmptyString) s = false <-> Py.count c s = 0%nat.
Proof.
  induction s as [| a s IH]; simpl; [split; reflexivity |].
  rewrite orb_false_iff, IH.
  rewrite andb_true_r, (Ascii.eqb_sym c a).
  destruct (Ascii.eqb a c); simpl.
  - split; [intros [H _]; discriminate H | discriminate].
  - split; [intros [_ H]; exact H | intros H; split; [reflexivity | exact H]].
Qed.

(** X1: the image id of the brain dataset never contains a path separator,
    whatever the path. *)
Theorem brain_img_id_no_slash :
  forall img_path : string,
    Py.str_contains "/" (Brain.ImgIdExtractor._extract img_path) = false.
Proof.
  intros img_path. apply str_contains_char.
  unfold Brain.ImgIdExtractor._extract. apply count_basename.
Qed.

(** X2: for an image stored as folder/file, where the file name has no
    slash, the brain image id is the file name; the folder plays no part. *)
Theorem brain_img_id_of_join :
  forall folder file : string,
    Py.count "/" file = 0%nat ->
    Brain.ImgIdExtractor._extract (folder +:+ "/" +:+ file) = file.
Proof.
  intros folder file Hf.
  unfold Brain.ImgIdExtractor._extract, Py.basename.
  rewrite (rsplit_slash_join folder file Hf). reflexivity.
Qed.

Lemma brain_img_id_of_join_witness :
  Brain.ImgIdExtractor._extract ("Patients_CT/049/brain" +:+ "/" +:+ "18.jpg")
  = "18.jpg".
Proof.
  apply (brain_img_id_of_join "Patients_CT/049/brain" "18.jpg").
  reflexivity.
Defined.

(** X3: extracting the brain image id is idempotent, and the id is the
    tail of the path: the path is some directory prefix followed by it. *)
Theorem brain_img_id_idempotent :
  forall img_path : string,
    Brain.ImgIdExtractor._extract (Brain.ImgIdExtractor._extract img_path)
    = Brain.ImgIdExtractor._extract img_path /\
    exists prefix : string,
      img_path = prefix +:+ Brain.ImgIdExtractor._extract img_path.
Proof.
  intros img_path. unfold Brain.ImgIdExtractor._extract. split.
  - unfold Py.basename at 1.
    rewrite (rsplit_slash_plain _ (count_basename img_path)). reflexivity.
  - exists (Py.dirprefix img_path). symmetry. apply dirprefix_basename.
Qed.

Lemma append_assoc3 (a b c : string) : (a +:+ b) +:+ c = a +:+ b +:+ c.
Proof.
  induction a as [| x a IH]; [reflexivity |].
  rewrite !append_cons, IH. reflexivity.
Qed.

Lemma occurs_embed (sub s pre post : string) :
  occurs sub s -> occurs sub (pre +:+ s +:+ post).
Proof.
  intros (u & v & ->). exists (pre +:+ u), (v +:+ post).
  rewrite !append_assoc3. reflexivity.
Qed.

(** X4: the brain selectors test the whole path, not the file name: a path
    accepted by the image selector (by the mask selector) stays accepted
    when any text is put before or after it, such as a parent folder. *)
Theorem brain_selectors_embed :
  forall path pre post : string,
    (Brain.ImageSelector._is_image_file path = true ->
     Brain.ImageSelector._is_image_file (pre +:+ path +:+ post) = true) /\
    (Brain.MaskSelector._is_mask_file path = true ->
     Brain.MaskSelector._is_mask_file (pre +:+ path +:+ post) = true).
Proof.
  intros path pre post.
  unfold Brain.ImageSelector._is_image_file, Brain.MaskSelector._is_mask_file.
  rewrite !str_contains_spec. split; apply occurs_embed.
Qed.

Lemma brain_selectors_embed_witness :
  Brain.ImageSelector._is_image_file ("scans/" +:+ "v1.0" +:+ "/readme") = true /\
  Brain.MaskSelector._is_mask_file ("all_HGE_Seg/" +:+ "x_HGE_Seg" +:+ "") = true.
Proof.
  split.
  - apply (proj1 (brain_selectors_embed "v1.0" "scans/" "/readme")).
    reflexivity.
  - apply (proj2 (brain_selectors_embed "x_HGE_Seg" "all_HGE_Seg/" "")).
    reflexivity.
Defined.

Lemma index_first {A : Type} (x : A) (l : list A) :
  Py.index (x :: l) 0 = Ok x.
Proof.
  unfold Py.index. change (0 <? 0) with false. cbv iota.
  destruct (Z.leb_spec (Z.of_nat (length (x :: l))) 0) as [H | H].
  - simpl length in H. lia.
  - reflexivity.
Qed.

Lemma split_first (sep : ascii) (s : string) :
  exists (w : string) (ws : list string),
    Py.split sep s = w :: ws /\
    Py.count sep w = 0%nat /\ Py.startswith w s = true.
Proof.
  induction s as [| c s (w & ws & E & Hc & Hp)].
  - exists EmptyString, []. repeat split.
  - simpl. destruct (Ascii.eqb c sep) eqn:Ec.
    + exists EmptyString, (Py.split sep s). repeat split.
    + rewrite E. exists (String c w), ws. simpl.
      rewrite Ec, Hc, Hp, Ascii.eqb_refl. repeat split.
Qed.

(** X5: the ChestX-ray14 study-id extractor never raises: every path has a
    study id, the id holds no underscore, and the file name starts with
    it. *)
Theorem chest_study_id_total :
  forall img_path : string,
    exists study : string,
      ChestXray14.StudyIdExtractor._extract img_path = Ok study /\
      Py.count "_" study = 0%nat /\
      Py.startswith study (BaseExtractor._extract_filename img_path) = true.
Proof.
  intros img_path. unfold ChestXray14.StudyIdExtractor._extract.
  destruct (split_first "_" (BaseExtractor._extract_filename img_path))
    as (w & ws & E & Hc & Hp).
  exists w. rewrite E, index_first. repeat split; assumption.
Qed.

(** ** The brain label extractor *)

Lemma ndarray_contains_single (c : Z) (arr : image) :
  ndarray_contains [c] arr = Ok true <->
  exists (line : list pixel) (b g r : Z),
    In line arr /\ In (b, g, r) line /\ (b = c \/ g = c \/ r = c).
Proof.
  unfold ndarray_contains. split.
  - intros [= H]. apply existsb_exists in H as (line & Hl & H).
    apply existsb_exists in H as ([[b g] r] & Hp & H).
    exists line, b, g, r. split; [exact Hl | split; [exact Hp |]].
    rewrite !orb_true_iff, !Z.eqb_eq in H. tauto.
  - intros (line & b & g & r & Hl & Hp & H). f_equal.
    apply existsb_exists. exists line. split; [exact Hl |].
    apply existsb_exists. exists (b, g, r). split; [exact Hp |].
    rewrite !orb_true_iff, !Z.eqb_eq. tauto.
Qed.

(** X6: the brain label extractor labels an image as hemorrhage only with a
    mask on disk: a result with raw labels ["brain_hemorrhage"] means the
    mask path exists, the mask was decoded, the membership test on it was
    true, and the codes are those of "brain_hemorrhage". *)
Theorem brain_label_hemorrhage_needs_mask :
  forall (code : Type) (self : Brain.LabelExtractor.t code) (disk : Disk)
         (img_path mask_path : string) (codes : list code),
    Brain.LabelExtractor._extract self disk img_path mask_path
    = Ok (codes, ["brain_hemorrhage"]) ->
    os_path_exists disk mask_path = true /\
    exists arr : image,
      cv2_imread disk mask_path = Some arr /\
      ndarray_contains (Brain.LabelExtractor.target_colors self) arr
      = Ok true /\
      Brain.LabelExtractor.labels self !! "brain_hemorrhage" = Some codes.
Proof.
  intros code self disk img_path mask_path codes.
  unfold Brain.LabelExtractor._extract, Py.getitem.
  destruct (os_path_exists disk mask_path);
    [destruct (cv2_imread disk mask_path) as [arr |];
       [destruct (ndarray_contains _ arr) as [[|] | e] eqn:Ein |] |];
    simpl;
    repeat match goal with
           | |- context [Brain.LabelExtractor.labels self !! ?k] =>
               destruct (Brain.LabelExtractor.labels self !! k) eqn:?
           end; simpl; intros H; try discriminate H.
  injection H as ->. split; [reflexivity |].
  exists arr. repeat split; reflexivity || assumption.
Qed.

Lemma brain_label_hemorrhage_needs_mask_witness :
  let self :=
    {| Brain.LabelExtractor.labels :=
         <["brain_hemorrhage" := ["H"]]> (∅ : gmap string (list string));
       Brain.LabelExtractor.target_colors := [7] |} in
  let disk :=
    {| os_path_exists := fun _ => true;
       cv2_imread := fun _ => Some [[(0, 0, 7)]] |} in
  os_path_exists disk "m.jpg" = true /\
  exists arr : image,
    cv2_imread disk "m.jpg" = Some arr /\
    ndarray_contains (Brain.LabelExtractor.target_colors self) arr
    = Ok true /\
    Brain.LabelExtractor.labels self !! "brain_hemorrhage" = Some ["H"].
Proof.
  intros self disk.
  apply (brain_label_hemorrhage_needs_mask string self disk
           "i.jpg" "m.jpg" ["H"]).
  vm_compute. reflexivity.
Defined.

(** X7: whatever the disk holds, a result of the brain label extractor is
    one of two: raw labels ["brain_hemorrhage"] with the codes of that key,
    or raw labels ["normal"] with the codes of that key. It never returns
    an empty label list. *)
Theorem brain_label_range :
  forall (code : Type) (self : Brain.LabelExtractor.t code) (disk : Disk)
         (img_path mask_path : string) (codes : list code)
         (raw : list string),
    Brain.LabelExtractor._extract self disk img_path mask_path
    = Ok (codes, raw) ->
    (raw = ["brain_hemorrhage"] /\
     Brain.LabelExtractor.labels self !! "brain_hemorrhage" = Some codes) \/
    (raw = ["normal"] /\
     Brain.LabelExtractor.labels self !! "normal" = Some codes).
Proof.
  intros code self disk img_path mask_path codes raw.
  unfold Brain.LabelExtractor._extract, Py.getitem.
  destruct (os_path_exists disk mask_path);
    [destruct (cv2_imread disk mask_path) as [arr |];
       [destruct (ndarray_contains _ arr) as [[|] | e] |] |];
    simpl;
    repeat match goal with
           | |- context [Brain.LabelExtractor.labels self !! ?k] =>
               destruct (Brain.LabelExtractor.labels self !! k) eqn:?
           end; simpl; intros H; try discriminate H;
    injection H as -> ->; auto.
Qed.

Lemma brain_label_range_witness :
  let self :=
    {| Brain.LabelExtractor.labels :=
         <["normal" := ["N"]]> (∅ : gmap string (list string));
       Brain.LabelExtractor.target_colors := [1] |} in
  (["normal"] = ["brain_hemorrhage"] /\
   Brain.LabelExtractor.labels self !! "brain_hemorrhage" = Some ["N"]) \/
  (["normal"] = ["normal"] /\
   Brain.LabelExtractor.labels self !! "normal" = Some ["N"]).
Proof.
  intros self.
  apply (brain_label_range string self
           {| os_path_exists := fun _ => false;
              cv2_imread := fun _ => None |}
           "i.jpg" "m.jpg" ["N"] ["normal"]).
  vm_compute. reflexivity.
Defined.

(** X8: a mask file that exists but cannot be decoded makes the brain label
    extractor raise TypeError; the image is not labelled normal. *)
Theorem brain_label_undecodable_mask :
  forall (code : Type) (self : Brain.LabelExtractor.t code) (disk : Disk)
         (img_path mask_path : string),
    os_path_exists disk mask_path = true ->
    cv2_imread disk mask_path = None ->
    Brain.LabelExtractor._extract self disk img_path mask_path
    = Raise TypeError.
Proof.
  intros code self disk img_path mask_path Hex Hrd.
  unfold Brain.LabelExtractor._extract. rewrite Hex, Hrd. reflexivity.
Qed.

Lemma brain_label_undecodable_mask_witness :
  Brain.LabelExtractor._extract
    {| Brain.LabelExtractor.labels :=
         <["normal" := ["N"]]> (∅ : gmap string (list string));
       Brain.LabelExtractor.target_colors := [1] |}
    {| os_path_exists := fun _ => true; cv2_imread := fun _ => None |}
    "i.jpg" "m.jpg"
  = Raise TypeError.
Proof.
  apply brain_label_undecodable_mask; reflexivity.
Defined.

(** X9: the brain label extractor raises KeyError only for one of its two
    label names, and only when the label table lacks that name. *)
Theorem brain_label_keyerror_inv :
  forall (code : Type) (self : Brain.LabelExtractor.t code) (disk : Disk)
         (img_path mask_path key : string),
    Brain.LabelExtractor._extract self disk img_path mask_path
    = Raise (KeyError key) ->
    (key = "brain_hemorrhage" \/ key = "normal") /\
    Brain.LabelExtractor.labels self !! key = None.
Proof.
  intros code self disk img_path mask_path key.
  unfold Brain.LabelExtractor._extract.
  set (has_mask := if os_path_exists disk mask_path then _ else _).
  assert (Hm : (exists b : bool, has_mask = Ok b) \/
               has_mask = Raise TypeError \/ has_mask = Raise ValueError).
  { subst has_mask. destruct (os_path_exists disk mask_path); [| eauto].
    destruct (cv2_imread disk mask_path) as [arr |]; [| auto].
    unfold ndarray_contains.
    destruct (Brain.LabelExtractor.target_colors self)
      as [| c0 [| c1 [| c2 [| c3 l]]]]; eauto. }
  destruct Hm as [[b ->] | [-> | ->]]; simpl; try discriminate.
  unfold Py.getitem.
  destruct b;
    match goal with
    | |- context [Brain.LabelExtractor.labels self !! ?k] =>
        destruct (Brain.LabelExtractor.labels self !! k) eqn:E
    end; simpl; intros H; try discriminate H;
    injection H as <-; auto.
Qed.

Lemma brain_label_keyerror_inv_witness :
  let self :=
    {| Brain.LabelExtractor.labels :=
         <["brain_hemorrhage" := ["H"]]> (∅ : gmap string (list string));
       Brain.LabelExtractor.target_colors := [1] |} in
  ("normal" = "brain_hemorrhage" \/ "normal" = "normal") /\
  Brain.LabelExtractor.labels self !! "normal" = None.
Proof.
  intros self.
  apply (brain_label_keyerror_inv string self
           {| os_path_exists := fun _ => false;
              cv2_imread := fun _ => None |}
           "i.jpg" "m.jpg" "normal").
  vm_compute. reflexivity.
Defined.

Lemma ndarray_contains_blank (colors : list Z) (arr : image) :
  Forall (fun c => c <> 0) colors ->
  length colors = 1%nat \/ length colors = 3%nat ->
  Forall (Forall (fun px : pixel => px = (0, 0, 0))) arr ->
  ndarray_contains colors arr = Ok false.
Proof.
  intros Hc Hlen Hblank.
  assert (Hpx : forall f : pixel -> bool,
             f (0, 0, 0) = false -> existsb (existsb f) arr = false).
  { intros f Hf. induction Hblank as [| line arr Hline _ IH]; [reflexivity |].
    simpl. rewrite IH, orb_false_r.
    induction Hline as [| px line -> _ IHl]; [reflexivity |].
    simpl. rewrite Hf, IHl. reflexivity. }
  unfold ndarray_contains.
  destruct colors as [| c0 [| c1 [| c2 [| c3 l]]]];
    try (destruct Hlen as [Hlen | Hlen]; discriminate Hlen).
  - f_equal. apply Hpx. apply Forall_cons_iff in Hc as [H0 _].
    apply orb_false_iff; split; [apply orb_false_iff; split |];
      apply Z.eqb_neq; congruence.
  - f_equal. apply Hpx.
    apply Forall_cons_iff in Hc as [H0 Hc].
    apply Forall_cons_iff in Hc as [H1 Hc].
    apply Forall_cons_iff in Hc as [H2 _].
    apply orb_false_iff; split; [apply orb_false_iff; split |];
      apply Z.eqb_neq; congruence.
Qed.

(** X10: a blank mask gives the normal label. When one or three target
    colours are configured, none of them 0, and the mask on disk decodes to
    an array whose pixels are all (0, 0, 0), the brain label extractor
    returns the codes of "normal" with raw labels ["normal"]. *)
Theorem brain_label_blank_mask :
  forall (code : Type) (self : Brain.LabelExtractor.t code) (disk : Disk)
         (img_path mask_path : string) (arr : image) (codes : list code),
    Forall (fun c => c <> 0) (Brain.LabelExtractor.target_colors self) ->
    length (Brain.LabelExtractor.target_colors self) = 1%nat \/
    length (Brain.LabelExtractor.target_colors self) = 3%nat ->
    os_path_exists disk mask_path = true ->
    cv2_imread disk mask_path = Some arr ->
    Forall (Forall (fun px : pixel => px = (0, 0, 0))) arr ->
    Brain.LabelExtractor.labels self !! "normal" = Some codes ->
    Brain.LabelExtractor._extract self disk img_path mask_path
    = Ok (codes, ["normal"]).
Proof.
  intros code self disk img_path mask_path arr codes Hc Hlen Hex Hrd Hb Hl.
  unfold Brain.LabelExtractor._extract, Py.getitem.
  rewrite Hex, Hrd, (ndarray_contains_blank _ _ Hc Hlen Hb). simpl.
  rewrite Hl. reflexivity.
Qed.

Lemma brain_label_blank_mask_witness :
  let self :=
    {| Brain.LabelExtractor.labels :=
         <["normal" := ["N"]]> (∅ : gmap string (list string));
       Brain.LabelExtractor.target_colors := [1] |} in
  let disk :=
    {| os_path_exists := fun _ => true;
       cv2_imread := fun _ => Some [[(0, 0, 0); (0, 0, 0)]] |} in
  Brain.LabelExtractor._extract self disk "i.jpg" "m.jpg"
  = Ok (["N"], ["normal"]).
Proof.
  intros self disk.
  apply (brain_label_blank_mask string self disk "i.jpg" "m.jpg"
           [[(0, 0, 0); (0, 0, 0)]] ["N"]).
  - simpl. constructor; [lia | constructor].
  - left. reflexivity.
  - reflexivity.
  - reflexivity.
  - repeat constructor.
  - vm_compute. reflexivity.
Defined.

(** X11: for a configuration with a single mask class, whose mask exists
    and decodes, the extractor built by __init__ returns the hemorrhage
    label exactly when some channel of some pixel of the mask equals the
    target colour of that class; the source colour plays no part. *)
Theorem brain_label_single_class :
  forall (code : Type) (labels : gmap string (list code))
         (class : string) (color : MaskColor) (disk : Disk)
         (img_path mask_path : string) (arr : image)
         (hemorrhage normal : list code),
    os_path_exists disk mask_path = true ->
    cv2_imread disk mask_path = Some arr ->
    labels !! "brain_hemorrhage" = Some hemorrhage ->
    labels !! "normal" = Some normal ->
    let self := Brain.LabelExtractor.__init__ labels [(class, color)] in
    ((exists (line : list pixel) (b g r : Z),
        In line arr /\ In (b, g, r) line /\
        (b = target_color color \/ g = target_color color \/
         r = target_color color)) ->
     Brain.LabelExtractor._extract self disk img_path mask_path
     = Ok (hemorrhage, ["brain_hemorrhage"])) /\
    (~ (exists (line : list pixel) (b g r : Z),
          In line arr /\ In (b, g, r) line /\
          (b = target_color color \/ g = target_color color \/
           r = target_color color)) ->
     Brain.LabelExtractor._extract self disk img_path mask_path
     = Ok (normal, ["normal"])).
Proof.
  intros code labels class color disk img_path mask_path arr
    hemorrhage normal Hex Hrd Hh Hn self.
  pose proof (ndarray_contains_single (target_color color) arr) as Hspec.
  unfold Brain.LabelExtractor._extract, Py.getitem. subst self.
  simpl Brain.LabelExtractor.target_colors.
  simpl Brain.LabelExtractor.labels.
  rewrite Hex, Hrd.
  destruct (ndarray_contains [target_color color] arr) as [[|] | e] eqn:E.
  - simpl. rewrite Hh. split; [reflexivity |].
    intros Hno. exfalso. apply Hno. apply Hspec. reflexivity.
  - simpl. rewrite Hn. split; [| reflexivity].
    intros Hyes. apply Hspec in Hyes. discriminate Hyes.
  - discriminate E.
Qed.

Lemma brain_label_single_class_witness :
  let labels : gmap string (list string) :=
    <["brain_hemorrhage" := ["H"]]> (<["normal" := ["N"]]> ∅) in
  let disk :=
    {| os_path_exists := fun _ => true;
       cv2_imread := fun _ => Some [[(0, 0, 0); (0, 9, 0)]] |} in
  Brain.LabelExtractor._extract
    (Brain.LabelExtractor.__init__ labels
       [("brain_hemorrhage", {| source_color := 255; target_color := 9 |})])
    disk "i.jpg" "m.jpg"
  = Ok (["H"], ["brain_hemorrhage"]).
Proof.
  intros labels disk.
  apply (proj1 (brain_label_single_class string labels "brain_hemorrhage"
                  {| source_color := 255; target_color := 9 |} disk
                  "i.jpg" "m.jpg" [[(0, 0, 0); (0, 9, 0)]] ["H"] ["N"]
                  eq_refl eq_refl ltac:(vm_compute; reflexivity)
                  ltac:(vm_compute; reflexivity))).
  exists [(0, 0, 0); (0, 9, 0)], 0, 9, 0. simpl. auto.
Defined.

(** X12: the brain label extractor does not raise when the label table has
    both of its names, one or three target colours are configured, and the
    mask, if it exists, can be decoded. *)
Theorem brain_label_no_exception :
  forall (code : Type) (self : Brain.LabelExtractor.t code) (disk : Disk)
         (img_path mask_path : string),
    is_Some (Brain.LabelExtractor.labels self !! "brain_hemorrhage") ->
    is_Some (Brain.LabelExtractor.labels self !! "normal") ->
    length (Brain.LabelExtractor.target_colors self) = 1%nat \/
    length (Brain.LabelExtractor.target_colors self) = 3%nat ->
    (os_path_exists disk mask_path = true ->
     is_Some (cv2_imread disk mask_path)) ->
    exists (codes : list code) (raw : list string),
      Brain.LabelExtractor._extract self disk img_path mask_path
      = Ok (codes, raw).
Proof.
  intros code self disk img_path mask_path [h Hh] [n Hn] Hlen Hrd.
  unfold Brain.LabelExtractor._extract, Py.getitem, ndarray_contains.
  rewrite Hh, Hn.
  destruct (os_path_exists disk mask_path); [| simpl; eauto].
  destruct (Hrd eq_refl) as [arr ->].
  destruct (Brain.LabelExtractor.target_colors self)
    as [| c0 [| c1 [| c2 [| c3 l]]]];
    try (destruct Hlen as [Hlen | Hlen]; discriminate Hlen); simpl.
  - match goal with
    | |- context [existsb ?f arr] => destruct (existsb f arr)
    end; eauto.
  - match goal with
    | |- context [existsb ?f arr] => destruct (existsb f arr)
    end; eauto.
Qed.

Lemma brain_label_no_exception_witness :
  let self :=
    {| Brain.LabelExtractor.labels :=
         <["brain_hemorrhage" := ["H"]]>
           (<["normal" := ["N"]]> (∅ : gmap string (list string)));
       Brain.LabelExtractor.target_colors := [1] |} in
  let disk :=
    {| os_path_exists := fun _ => true;
       cv2_imread := fun _ => Some [[(0, 0, 0)]] |} in
  exists (codes : list string) (raw : list string),
    Brain.LabelExtractor._extract self disk "i.jpg" "m.jpg"
    = Ok (codes, raw).
Proof.
  intros self disk.
  apply (brain_label_no_exception string self disk "i.jpg" "m.jpg").
  - exists ["H"]. vm_compute. reflexivity.
  - exists ["N"]. vm_compute. reflexivity.
  - left. reflexivity.
  - intros _. exists [[(0, 0, 0)]]. reflexivity.
Defined.

(** ** The ChestX-ray14 label extractor *)

Lemma find_filter_head {A : Type} (f : A -> bool) (l : list A) :
  List.find f l = head (List.filter f l).
Proof.
  induction l as [| x l IH]; [reflexivity |].
  simpl. destruct (f x); [reflexivity | exact IH].
Qed.

Lemma extend_all_known {code : Type} (dict : gmap string (list code))
  (names : list string) (entries : list (list code)) :
  Forall2 (fun name codes => dict !! name = Some codes) names entries ->
  forall acc : list code,
    ChestXray14.LabelExtractor.extend_all dict names acc
    = Ok (acc ++ concat entries).
Proof.
  induction 1 as [| name codes names entries Hn _ IH]; intros acc.
  - simpl. rewrite app_nil_r. reflexivity.
  - simpl. unfold Py.getitem. rewrite Hn. simpl.
    rewrite IH, app_assoc. reflexivity.
Qed.

Lemma extend_all_ok_inv {code : Type} (dict : gmap string (list code))
  (names : list string) :
  forall acc out : list code,
    ChestXray14.LabelExtractor.extend_all dict names acc = Ok out ->
    exists entries : list (list code),
      Forall2 (fun name codes => dict !! name = Some codes) names entries /\
      out = acc ++ concat entries.
Proof.
  induction names as [| name names IH]; intros acc out.
  - simpl. intros [= <-]. exists []. split; [constructor |].
    simpl. rewrite app_nil_r. reflexivity.
  - simpl. unfold Py.getitem.
    destruct (dict !! name) as [codes |] eqn:E; simpl; [| discriminate].
    intros H. destruct (IH _ _ H) as (entries & HF & ->).
    exists (codes :: entries). split; [constructor; assumption |].
    simpl. rewrite app_assoc. reflexivity.
Qed.

Lemma extend_all_first_missing {code : Type}
  (dict : gmap string (list code)) (known : list string) (missing : string)
  (later : list string) :
  Forall (fun name => is_Some (dict !! name)) known ->
  dict !! missing = None ->
  forall acc : list code,
    ChestXray14.LabelExtractor.extend_all dict
      (known ++ missing :: later) acc
    = Raise (KeyError missing).
Proof.
  intros Hk Hm. induction Hk as [| name known [codes Hn] _ IH]; intros acc.
  - simpl. unfold Py.getitem. rewrite Hm. reflexivity.
  - simpl. unfold Py.getitem. rewrite Hn. simpl. apply IH.
Qed.

Lemma extend_all_raise_inv {code : Type} (dict : gmap string (list code))
  (names : list string) :
  forall (acc : list code) (e : py_error),
    ChestXray14.LabelExtractor.extend_all dict names acc = Raise e ->
    exists name : string,
      e = KeyError name /\ In name names /\ dict !! name = None.
Proof.
  induction names as [| name names IH]; intros acc e; simpl; [discriminate |].
  unfold Py.getitem. destruct (dict !! name) as [codes |] eqn:E; simpl.
  - intros H. destruct (IH _ _ H) as (n & -> & Hin & Hno).
    exists n. auto.
  - intros [= <-]. exists name. auto.
Qed.

Lemma split_not_nil (sep : ascii) (s : string) : Py.split sep s <> [].
Proof.
  destruct (split_first sep s) as (w & ws & E & _). rewrite E. discriminate.
Qed.

(** The outcomes of the extractor, by cases on the first matching row. *)
Lemma chest_label_extract_cases {code : Type}
  (self : ChestXray14.LabelExtractor.t code) (img_path : string) :
  let first :=
    List.find (fun r => cell_eqb (Image_Index r) (Py.basename img_path))
      (ChestXray14.LabelExtractor.source_labels self) in
  ChestXray14.LabelExtractor._extract self img_path =
  match first with
  | None => Ok ([], [])
  | Some r =>
      match Finding_Labels r with
      | Str s =>
          radlex_labels ←
            ChestXray14.LabelExtractor.extend_all
              (ChestXray14.LabelExtractor.labels self) (Py.split "|" s) [];
          Ok (radlex_labels, Py.split "|" s)
      | NaN => Raise AttributeError
      end
  end.
Proof.
  intros first. subst first. rewrite find_filter_head.
  unfold ChestXray14.LabelExtractor._extract.
  destruct (List.filter _ _); reflexivity.
Qed.

(** X13: when every finding of the first matching row is a key of the
    vocabulary, the ChestX-ray14 label extractor returns the vocabulary
    entries of the findings, concatenated in the order of the findings,
    together with the findings themselves. *)
Theorem chest_label_extract_known :
  forall (code : Type) (self : ChestXray14.LabelExtractor.t code)
         (img_path : string) (r : row) (findings : string)
         (entries : list (list code)),
    List.find (fun r => cell_eqb (Image_Index r) (Py.basename img_path))
      (ChestXray14.LabelExtractor.source_labels self) = Some r ->
    Finding_Labels r = Str findings ->
    Forall2
      (fun name codes =>
         ChestXray14.LabelExtractor.labels self !! name = Some codes)
      (Py.split "|" findings) entries ->
    ChestXray14.LabelExtractor._extract self img_path
    = Ok (concat entries, Py.split "|" findings).
Proof.
  intros code self img_path r findings entries Hfind Hcell Hknown.
  rewrite chest_label_extract_cases. simpl. rewrite Hfind, Hcell.
  rewrite (extend_all_known _ _ _ Hknown []). reflexivity.
Qed.

Lemma chest_label_extract_known_witness :
  let self :=
    {| ChestXray14.LabelExtractor.labels :=
         <["Cardiomegaly" := ["RID1"; "RID2"]]>
           (<["Effusion" := ["RID3"]]> (∅ : gmap string (list string)));
       ChestXray14.LabelExtractor.source_labels :=
         [ {| Image_Index := Str "00000001_000.png";
              Finding_Labels := Str "Effusion|Cardiomegaly" |} ] |} in
  ChestXray14.LabelExtractor._extract self "images/00000001_000.png"
  = Ok (["RID3"; "RID1"; "RID2"], ["Effusion"; "Cardiomegaly"]).
Proof.
  intros self.
  apply (chest_label_extract_known string self "images/00000001_000.png"
           {| Image_Index := Str "00000001_000.png";
              Finding_Labels := Str "Effusion|Cardiomegaly" |}
           "Effusion|Cardiomegaly" [["RID3"]; ["RID1"; "RID2"]]).
  - reflexivity.
  - reflexivity.
  - repeat constructor.
Defined.

(** X14: the KeyError of the ChestX-ray14 label extractor names the first
    finding that the vocabulary lacks: when the findings before it are all
    keys of the vocabulary, that finding is the one reported, whatever
    follows it. *)
Theorem chest_label_extract_first_missing :
  forall (code : Type) (self : ChestXray14.LabelExtractor.t code)
         (img_path : string) (r : row) (findings missing : string)
         (known later : list string),
    List.find (fun r => cell_eqb (Image_Index r) (Py.basename img_path))
      (ChestXray14.LabelExtractor.source_labels self) = Some r ->
    Finding_Labels r = Str findings ->
    Py.split "|" findings = known ++ missing :: later ->
    Forall
      (fun name => is_Some (ChestXray14.LabelExtractor.labels self !! name))
      known ->
    ChestXray14.LabelExtractor.labels self !! missing = None ->
    ChestXray14.LabelExtractor._extract self img_path
    = Raise (KeyError missing).
Proof.
  intros code self img_path r findings missing known later
    Hfind Hcell Hsplit Hknown Hmiss.
  rewrite chest_label_extract_cases. simpl. rewrite Hfind, Hcell, Hsplit.
  rewrite (extend_all_first_missing _ _ _ _ Hknown Hmiss). reflexivity.
Qed.

Lemma chest_label_extract_first_missing_witness :
  let self :=
    {| ChestXray14.LabelExtractor.labels :=
         <["Effusion" := ["RID3"]]> (∅ : gmap string (list string));
       ChestXray14.LabelExtractor.source_labels :=
         [ {| Image_Index := Str "00000001_000.png";
              Finding_Labels := Str "Effusion|Mass|Nodule" |} ] |} in
  ChestXray14.LabelExtractor._extract self "images/00000001_000.png"
  = Raise (KeyError "Mass").
Proof.
  intros self.
  apply (chest_label_extract_first_missing string self
           "images/00000001_000.png"
           {| Image_Index := Str "00000001_000.png";
              Finding_Labels := Str "Effusion|Mass|Nodule" |}
           "Effusion|Mass|Nodule" "Mass" ["Effusion"] ["Nodule"]).
  - reflexivity.
  - reflexivity.
  - reflexivity.
  - constructor; [exists ["RID3"]; vm_compute; reflexivity | constructor].
  - vm_compute. reflexivity.
Defined.

Lemma cell_eqb_true (c : cell) (s : string) :
  cell_eqb c s = true <-> c = Str s.
Proof.
  destruct c as [s' |]; simpl.
  - rewrite String.eqb_eq.
    split; [intros ->; reflexivity | intros [= ->]; reflexivity].
  - split; discriminate.
Qed.

(** X15: the ChestX-ray14 label extractor returns an empty list of raw
    labels only for an image without a row in the label table; an image
    that has a row never gets empty labels. *)
Theorem chest_label_extract_empty_inv :
  forall (code : Type) (self : ChestXray14.LabelExtractor.t code)
         (img_path : string) (codes : list code),
    ChestXray14.LabelExtractor._extract self img_path = Ok (codes, []) ->
    codes = [] /\
    forall r : row,
      In r (ChestXray14.LabelExtractor.source_labels self) ->
      Image_Index r <> Str (Py.basename img_path).
Proof.
  intros code self img_path codes.
  rewrite chest_label_extract_cases. simpl.
  destruct (List.find _ _) as [r |] eqn:Hfind.
  - destruct (Finding_Labels r) as [s |]; [| discriminate].
    destruct (ChestXray14.LabelExtractor.extend_all _ _ _);
      simpl; [| discriminate].
    intros [= _ H]. destruct (split_not_nil _ _ H).
  - intros [= <-]. split; [reflexivity |].
    intros r Hr Heq.
    pose proof (find_none _ _ Hfind r Hr) as Hf. simpl in Hf.
    apply cell_eqb_true in Heq. congruence.
Qed.

Lemma chest_label_extract_empty_inv_witness :
  let self :=
    {| ChestXray14.LabelExtractor.labels :=
         <["Effusion" := ["RID3"]]> (∅ : gmap string (list string));
       ChestXray14.LabelExtractor.source_labels :=
         [ {| Image_Index := Str "00000001_000.png";
              Finding_Labels := Str "Effusion" |} ] |} in
  @nil string = [] /\
  forall r : row,
    In r (ChestXray14.LabelExtractor.source_labels self) ->
    Image_Index r <> Str (Py.basename "images/00000002_000.png").
Proof.
  intros self.
  apply (chest_label_extract_empty_inv string self "images/00000002_000.png").
  reflexivity.
Defined.

(** X16: the raw labels returned for an image that has a row are the
    "Finding Labels" entry cut at each "|": joining them with "|" gives the
    entry back, and there is one more label than there are "|" in it. *)
Theorem chest_label_extract_raw_roundtrip :
  forall (code : Type) (self : ChestXray14.LabelExtractor.t code)
         (img_path : string) (r : row) (findings : string)
         (codes : list code) (raw : list string),
    List.find (fun r => cell_eqb (Image_Index r) (Py.basename img_path))
      (ChestXray14.LabelExtractor.source_labels self) = Some r ->
    Finding_Labels r = Str findings ->
    ChestXray14.LabelExtractor._extract self img_path = Ok (codes, raw) ->
    String.concat "|" raw = findings /\
    length raw = S (Py.count "|" findings).
Proof.
  intros code self img_path r findings codes raw Hfind Hcell.
  rewrite chest_label_extract_cases. simpl. rewrite Hfind, Hcell.
  destruct (ChestXray14.LabelExtractor.extend_all _ _ _);
    simpl; [| discriminate].
  intros [= _ <-]. split; [apply concat_split | apply length_split].
Qed.

Lemma chest_label_extract_raw_roundtrip_witness :
  String.concat "|" ["Effusion"; "Cardiomegaly"] = "Effusion|Cardiomegaly" /\
  length ["Effusion"; "Cardiomegaly"]
  = S (Py.count "|" "Effusion|Cardiomegaly").
Proof.
  apply (chest_label_extract_raw_roundtrip string
           {| ChestXray14.LabelExtractor.labels :=
                <["Cardiomegaly" := ["RID1"; "RID2"]]>
                  (<["Effusion" := ["RID3"]]> ∅);
              ChestXray14.LabelExtractor.source_labels :=
                [ {| Image_Index := Str "00000001_000.png";
                     Finding_Labels := Str "Effusion|Cardiomegaly" |} ] |}
           "images/00000001_000.png"
           {| Image_Index := Str "00000001_000.png";
              Finding_Labels := Str "Effusion|Cardiomegaly" |}
           "Effusion|Cardiomegaly" ["RID3"; "RID1"; "RID2"]).
  - reflexivity.
  - reflexivity.
  - vm_compute. reflexivity.
Defined.

Lemma Forall2_concat_origin {A B : Type} (P : A -> B -> Prop)
  (xs : list A) (ys : list B) :
  Forall2 P xs ys ->
  forall y : B, In y ys -> exists x : A, In x xs /\ P x y.
Proof.
  induction 1 as [| x y xs ys Hxy _ IH]; intros z Hz; [destruct Hz |].
  destruct Hz as [<- | Hz].
  - exists x. split; [left; reflexivity | exact Hxy].
  - destruct (IH z Hz) as (x' & Hin & Hp). exists x'. split; [right |]; auto.
Qed.

(** X17: every code returned by the ChestX-ray14 label extractor comes from
    the vocabulary entry of one of the raw labels returned with it. *)
Theorem chest_label_extract_codes_origin :
  forall (code : Type) (self : ChestXray14.LabelExtractor.t code)
         (img_path : string) (codes : list code) (raw : list string)
         (c : code),
    ChestXray14.LabelExtractor._extract self img_path = Ok (codes, raw) ->
    In c codes ->
    exists (name : string) (entry : list code),
      In name raw /\
      ChestXray14.LabelExtractor.labels self !! name = Some entry /\
      In c entry.
Proof.
  intros code self img_path codes raw c.
  rewrite chest_label_extract_cases. simpl.
  destruct (List.find _ _) as [r |].
  - destruct (Finding_Labels r) as [s |]; [| discriminate].
    destruct (ChestXray14.LabelExtractor.extend_all _ _ _) as [out | e]
      eqn:E; simpl; [| discriminate].
    intros [= <- <-] Hc.
    apply extend_all_ok_inv in E as (entries & HF & ->).
    simpl in Hc. apply in_concat in Hc as (entry & He & Hc).
    destruct (Forall2_concat_origin _ _ _ HF entry He) as (name & Hn & Hl).
    exists name, entry. auto.
  - intros [= <- <-] [].
Qed.

Lemma chest_label_extract_codes_origin_witness :
  let self :=
    {| ChestXray14.LabelExtractor.labels :=
         <["Cardiomegaly" := ["RID1"; "RID2"]]>
           (<["Effusion" := ["RID3"]]> (∅ : gmap string (list string)));
       ChestXray14.LabelExtractor.source_labels :=
         [ {| Image_Index := Str "00000001_000.png";
              Finding_Labels := Str "Effusion|Cardiomegaly" |} ] |} in
  exists (name : string) (entry : list string),
    In name ["Effusion"; "Cardiomegaly"] /\
    ChestXray14.LabelExtractor.labels self !! name = Some entry /\
    In "RID2" entry.
Proof.
  intros self.
  apply (chest_label_extract_codes_origin string self
           "images/00000001_000.png" ["RID3"; "RID1"; "RID2"]
           ["Effusion"; "Cardiomegaly"] "RID2").
  - vm_compute. reflexivity.
  - right. right. left. reflexivity.
Defined.

Lemma find_first_match {A : Type} (f : A -> bool) (before after : list A)
  (x : A) :
  Forall (fun y => f y = false) before -> f x = true ->
  List.find f (before ++ x :: after) = Some x.
Proof.
  intros Hb Hx. induction Hb as [| y before Hy _ IH]; simpl.
  - rewrite Hx. reflexivity.
  - rewrite Hy. exact IH.
Qed.

(** X18: only the first row for an image counts. If a row for the image is
    preceded by rows for other images only, the ChestX-ray14 label
    extractor gives the same outcome as on a table made of that row alone;
    later rows, also later rows for the same image, are ignored. *)
Theorem chest_label_extract_first_row :
  forall (code : Type) (labels : gmap string (list code))
         (before after : list row) (r : row) (img_path : string),
    Forall (fun r' => Image_Index r' <> Str (Py.basename img_path)) before ->
    Image_Index r = Str (Py.basename img_path) ->
    ChestXray14.LabelExtractor._extract
      {| ChestXray14.LabelExtractor.labels := labels;
         ChestXray14.LabelExtractor.source_labels := before ++ r :: after |}
      img_path
    = ChestXray14.LabelExtractor._extract
        {| ChestXray14.LabelExtractor.labels := labels;
           ChestXray14.LabelExtractor.source_labels := [r] |}
        img_path.
Proof.
  intros code labels before after r img_path Hb Hr.
  rewrite !chest_label_extract_cases. simpl.
  assert (Hm : cell_eqb (Image_Index r) (Py.basename img_path) = true)
    by (apply cell_eqb_true; exact Hr).
  rewrite find_first_match; [| | exact Hm].
  - rewrite Hm. reflexivity.
  - eapply Forall_impl; [exact Hb |]. intros r' Hne. simpl in Hne.
    apply cell_eqb_false. exact Hne.
Qed.

Lemma chest_label_extract_first_row_witness :
  let labels : gmap string (list string) := <["Effusion" := ["RID3"]]> ∅ in
  let other := {| Image_Index := Str "00000009_000.png";
                  Finding_Labels := Str "Mass" |} in
  let first := {| Image_Index := Str "00000001_000.png";
                  Finding_Labels := Str "Effusion" |} in
  let second := {| Image_Index := Str "00000001_000.png";
                   Finding_Labels := NaN |} in
  ChestXray14.LabelExtractor._extract
    {| ChestXray14.LabelExtractor.labels := labels;
       ChestXray14.LabelExtractor.source_labels :=
         [other] ++ first :: [second] |}
    "images/00000001_000.png"
  = ChestXray14.LabelExtractor._extract
      {| ChestXray14.LabelExtractor.labels := labels;
         ChestXray14.LabelExtractor.source_labels := [first] |}
      "images/00000001_000.png".
Proof.
  intros labels other first second.
  apply (chest_label_extract_first_row string labels [other] [second] first
           "images/00000001_000.png").
  - constructor; [simpl; discriminate | constructor].
  - reflexivity.
Defined.

(** X19: a row whose "Finding Labels" cell is missing makes the ChestX-ray14
    label extractor raise AttributeError; the image is not treated as
    unlabelled. *)
Theorem chest_label_extract_missing_cell :
  forall (code : Type) (self : ChestXray14.LabelExtractor.t code)
         (img_path : string) (r : row),
    List.find (fun r => cell_eqb (Image_Index r) (Py.basename img_path))
      (ChestXray14.LabelExtractor.source_labels self) = Some r ->
    Finding_Labels r = NaN ->
    ChestXray14.LabelExtractor._extract self img_path = Raise AttributeError.
Proof.
  intros code self img_path r Hfind Hcell.
  rewrite chest_label_extract_cases. simpl. rewrite Hfind, Hcell.
  reflexivity.
Qed.

Lemma chest_label_extract_missing_cell_witness :
  ChestXray14.LabelExtractor._extract
    {| ChestXray14.LabelExtractor.labels :=
         <["Effusion" := ["RID3"]]> (∅ : gmap string (list string));
       ChestXray14.LabelExtractor.source_labels :=
         [ {| Image_Index := Str "00000001_000.png";
              Finding_Labels := NaN |} ] |}
    "images/00000001_000.png"
  = Raise AttributeError.
Proof.
  apply (chest_label_extract_missing_cell string _
           "images/00000001_000.png"
           {| Image_Index := Str "00000001_000.png";
              Finding_Labels := NaN |}).
  - reflexivity.
  - reflexivity.
Defined.

(** X20: the ChestX-ray14 labels of an image depend on its file name only:
    the same file name under two different folders gives the same
    outcome. *)
Theorem chest_label_extract_folder_independent :
  forall (code : Type) (self : ChestXray14.LabelExtractor.t code)
         (folder1 folder2 file : string),
    Py.count "/" file = 0%nat ->
    ChestXray14.LabelExtractor._extract self (folder1 +:+ "/" +:+ file)
    = ChestXray14.LabelExtractor._extract self (folder2 +:+ "/" +:+ file).
Proof.
  intros code self folder1 folder2 file Hf.
  unfold ChestXray14.LabelExtractor._extract, Py.basename.
  rewrite !(rsplit_slash_join _ file Hf). reflexivity.
Qed.

Lemma chest_label_extract_folder_independent_witness :
  let self :=
    {| ChestXray14.LabelExtractor.labels :=
         <["Effusion" := ["RID3"]]> (∅ : gmap string (list string));
       ChestXray14.LabelExtractor.source_labels :=
         [ {| Image_Index := Str "00000001_000.png";
              Finding_Labels := Str "Effusion" |} ] |} in
  ChestXray14.LabelExtractor._extract self
    ("images_001" +:+ "/" +:+ "00000001_000.png")
  = ChestXray14.LabelExtractor._extract self
      ("images_002/images" +:+ "/" +:+ "00000001_000.png").
Proof.
  intros self.
  apply (chest_label_extract_folder_independent string self
           "images_001" "images_002/images" "00000001_000.png").
  reflexivity.
Defined.

(** X21: the ChestX-ray14 label extractor raises nothing but AttributeError
    and KeyError, and a KeyError names a finding that the vocabulary
    lacks. *)
Theorem chest_label_extract_raise_inv :
  forall (code : Type) (self : ChestXray14.LabelExtractor.t code)
         (img_path : string) (e : py_error),
    ChestXray14.LabelExtractor._extract self img_path = Raise e ->
    e = AttributeError \/
    exists name : string,
      e = KeyError name /\
      ChestXray14.LabelExtractor.labels self !! name = None.
Proof.
  intros code self img_path e.
  rewrite chest_label_extract_cases. simpl.
  destruct (List.find _ _) as [r |]; [| discriminate].
  destruct (Finding_Labels r) as [s |]; [| intros [= <-]; left; reflexivity].
  destruct (ChestXray14.LabelExtractor.extend_all _ _ _) as [out | e']
    eqn:E; simpl; [discriminate |].
  intros [= ->]. right.
  apply extend_all_raise_inv in E as (name & -> & _ & Hno).
  exists name. auto.
Qed.

Lemma chest_label_extract_raise_inv_witness :
  let self :=
    {| ChestXray14.LabelExtractor.labels :=
         <["Effusion" := ["RID3"]]> (∅ : gmap string (list string));
       ChestXray14.LabelExtractor.source_labels :=
         [ {| Image_Index := Str "00000001_000.png";
              Finding_Labels := Str "Mass" |} ] |} in
  KeyError "Mass" = AttributeError \/
  exists name : string,
    KeyError "Mass" = KeyError name /\
    ChestXray14.LabelExtractor.labels self !! name = None.
Proof.
  intros self.
  apply (chest_label_extract_raise_inv string self
           "images/00000001_000.png" (KeyError "Mass")).
  vm_compute. reflexivity.
Defined.
